(** * Screenshot Ninja: a shallow embedding of the plugin and its properties

    The plugin is sequential glue over the host's GUI runtime: it looks a
    widget up, renders it into an offscreen pixmap, asks for a file name and
    saves.  The embedding keeps that shape.  Pure helpers are functions, the
    commands are computations in a small state-and-exception monad over a
    [World] (what the widgets show, the disk, and the log of interactions
    with the host), and everything the host or the user decides is read from
    an [Env]. *)

From stdpp Require Import base numbers list strings gmap pretty.
From Stdlib Require Import Strings.Byte Strings.Ascii.

Local Open Scope Z_scope.

#[local] Set Warnings "-clear-no-such-hyp".

(** ** Toolkit geometry *)

(** [QRect] as the toolkit stores it: the corners, both inclusive.  The
    coordinates are the Python integers the code computes with. *)
Record QRect := mkQRect { x1 : Z; y1 : Z; x2 : Z; y2 : Z }.

Record QSize := mkQSize { wd : Z; ht : Z }.

Record QPoint := mkQPoint { xp : Z; yp : Z }.

Module Qt.

Definition width (r : QRect) : Z := x2 r - x1 r + 1.
Definition height (r : QRect) : Z := y2 r - y1 r + 1.

(** [setWidth] and [setHeight] move the right and the bottom edge. *)
Definition setWidth (r : QRect) (w : Z) : QRect :=
  {| x1 := x1 r; y1 := y1 r; x2 := x1 r + w - 1; y2 := y2 r |}.
Definition setHeight (r : QRect) (h : Z) : QRect :=
  {| x1 := x1 r; y1 := y1 r; x2 := x2 r; y2 := y1 r + h - 1 |}.

Definition size (r : QRect) : QSize := {| wd := width r; ht := height r |}.

(** The default-constructed point. *)
Definition origin : QPoint := {| xp := 0; yp := 0 |}.

End Qt.

(** ** Helpers *)

(** [scaled_size]: copy the rectangle, set both extents, take the size. *)
Definition scaled_size (r : QRect) (scale : Z) : QSize :=
  let s := r in
  let s := Qt.setWidth s (Qt.width r * scale) in
  let s := Qt.setHeight s (Qt.height r * scale) in
  Qt.size s.

(** ** Python values *)

(** The exceptions the plugin can run into; it catches none. *)
Inductive PyExc := AttributeError | UnicodeDecodeError.

(** A Python reference: an object or [None]. *)
Definition Ref (A : Type) : Type := option A.

(** [bytes.decode("ascii")]: every byte must be below 128; [None] stands for
    the [UnicodeDecodeError] Python raises otherwise. *)
Fixpoint decode_ascii (b : list byte) : option string :=
  match b with
  | [] => Some EmptyString
  | c :: b' =>
      if (Byte.to_N c <? 128)%N
      then String (Ascii.ascii_of_byte c) <$> decode_ascii b'
      else None
  end.

(** ** Toolkit and host objects *)

(** What a widget shows at some moment; the plugin never looks inside. *)
Definition Pixels : Type := nat.

Record QWidget := mkQWidget { wid : nat; rect : QRect }.

(** A pixmap, by the size it was constructed with, its device pixel ratio and
    what has been painted into it so far. *)
Record QPixmap := mkQPixmap {
  pm_size : QSize;
  pm_ratio : Z;
  pm_painted : option Pixels
}.

Inductive ImageFormat := PNG | BMP | JPEG | PPM | XBM | XPM.

Record File := mkFile { file_format : ImageFormat; file_image : QPixmap }.

Inductive MessageBoxButtonSet := OKButtonSet | YesNoButtonSet | YesNoCancelButtonSet.
Inductive MessageBoxIcon := InformationIcon | QuestionIcon | WarningIcon | ErrorIcon.

Record ViewFrame := mkViewFrame { getCurrentWidget : Ref QWidget }.
Record DockHandler := mkDockHandler { getViewFrame : Ref ViewFrame }.

Inductive BinaryView := mkBinaryView (handle : nat).

(** One entry of the log per interaction with the host or the toolkit, in
    the order they happen.  Prompts record the user's answer, [EvSave] the
    toolkit's verdict. *)
Inductive Event :=
| EvIntInput (prompt title : string) (answer : option Z)
| EvRender (w : QWidget) (target : QPixmap) (targetOffset : QPoint) (sourceRegion : QRect)
| EvSaveDialog (prompt ext default_name : string) (answer : option (list byte))
| EvSave (img : QPixmap) (fileName : string) (ok : bool)
| EvPrint (line : string)
| EvMessageBox (title text : string) (buttons : MessageBoxButtonSet) (icon : MessageBoxIcon).

Record World := mkWorld {
  screen : nat → Pixels;
  disk : gmap string File;
  log : list Event
}.

(** Everything decided outside the plugin during one command. *)
Record Env := mkEnv {
  activeWindow : Ref QWidget;
  getActiveDockHandler : Ref DockHandler;
  int_answer : option Z;
  filename_answer : option (list byte);
  clock : Z;
  repaint : (nat → Pixels) → nat → Pixels;
  write_refused : string → bool
}.

(** ** The monad of commands: state and exceptions *)

Inductive Outcome (A : Type) :=
| Returned (a : A)
| Raised (e : PyExc).
Arguments Returned {A} a.
Arguments Raised {A} e.

Definition Py (A : Type) : Type := World → Outcome A * World.

#[global] Instance Py_ret : MRet Py := λ A a σ, (Returned a, σ).

#[global] Instance Py_bind : MBind Py := λ A B f m σ,
  match m σ with
  | (Returned a, σ') => f a σ'
  | (Raised e, σ') => (Raised e, σ')
  end.

Definition raise {A} (e : PyExc) : Py A := λ σ, (Raised e, σ).

Definition emit (ev : Event) : Py unit := λ σ,
  (Returned (), {| screen := screen σ; disk := disk σ; log := log σ ++ [ev] |}).

(** [o.method()]: [AttributeError] when [o] is [None]. *)
Definition attr {A} (o : Ref A) : Py A :=
  match o with
  | Some a => mret a
  | None => raise AttributeError
  end.

(** ** The toolkit's image writer

    [QPixmap.save(fileName)] is called without a format, and the toolkit then
    picks the writer from the suffix of [fileName]. *)

Module QImageWriter.

Fixpoint after_last (sep : Ascii.ascii) (s : string) : option string :=
  match s with
  | EmptyString => None
  | String c s' =>
      match after_last sep s' with
      | Some t => Some t
      | None => if Ascii.eqb c sep then Some s' else None
      end
  end.

Definition to_lower (c : Ascii.ascii) : Ascii.ascii :=
  let n := Ascii.N_of_ascii c in
  if ((65 <=? n) && (n <=? 90))%N then Ascii.ascii_of_N (n + 32) else c.

Fixpoint lower (s : string) : string :=
  match s with
  | EmptyString => EmptyString
  | String c s' => String (to_lower c) (lower s')
  end.

Definition file_name (path : string) : string :=
  default path (after_last "/"%char path).

(** What follows the last dot of the file name, lower-cased. *)
Definition suffix (path : string) : string :=
  lower (default EmptyString (after_last "."%char (file_name path))).

(** The writers of the toolkit, by suffix. *)
Definition writers : list (string * ImageFormat) :=
  [ ("png", PNG); ("bmp", BMP); ("jpg", JPEG); ("jpeg", JPEG);
    ("ppm", PPM); ("xbm", XBM); ("xpm", XPM) ]%string.

Fixpoint assoc (k : string) (l : list (string * ImageFormat)) : option ImageFormat :=
  match l with
  | [] => None
  | (k', v) :: l' => if String.eqb k k' then Some v else assoc k l'
  end.

(** The format a file of that name is written in, if there is a writer. *)
Definition format_for (path : string) : option ImageFormat :=
  assoc (suffix path) writers.

End QImageWriter.

Module QPixmap.

(** [QPixmap(size)]: nothing painted yet, ratio 1. *)
Definition new (s : QSize) : QPixmap :=
  {| pm_size := s; pm_ratio := 1; pm_painted := None |}.

(** A pixmap without a positive width and height holds no buffer. *)
Definition isNull (img : QPixmap) : bool :=
  negb ((0 <? wd (pm_size img)) && (0 <? ht (pm_size img))).

Definition setDevicePixelRatio (img : QPixmap) (scale : Z) : QPixmap :=
  {| pm_size := pm_size img; pm_ratio := scale; pm_painted := pm_painted img |}.

Definition paint (img : QPixmap) (px : Pixels) : QPixmap :=
  if isNull img then img
  else {| pm_size := pm_size img; pm_ratio := pm_ratio img; pm_painted := Some px |}.

End QPixmap.

Section Plugin.

Variable env : Env.

(** *** Host and toolkit calls *)

(** A modal prompt runs the host's event loop: the widgets may repaint. *)
Definition modal (ev : Event) : Py unit := λ σ,
  (Returned (),
   {| screen := repaint env (screen σ); disk := disk σ; log := log σ ++ [ev] |}).

(** [int(time.time())]: the Unix time in whole seconds. *)
Definition time_time : Py Z := mret (clock env).

Definition get_int_input (prompt title : string) : Py (option Z) :=
  modal (EvIntInput prompt title (int_answer env));;
  mret (int_answer env).

Definition get_save_filename_input (prompt ext default_name : string)
  : Py (option (list byte)) :=
  modal (EvSaveDialog prompt ext default_name (filename_answer env));;
  mret (filename_answer env).

Definition show_message_box (title text : string)
    (buttons : MessageBoxButtonSet) (icon : MessageBoxIcon) : Py unit :=
  modal (EvMessageBox title text buttons icon).

Definition print (line : string) : Py unit := emit (EvPrint line).

Definition QApplication_activeWindow : Py (Ref QWidget) :=
  mret (activeWindow env).

Definition DockHandler_getActiveDockHandler : Py (Ref DockHandler) :=
  mret (getActiveDockHandler env).

(** [w.render(img, offset, region)] paints what [w] shows now into [img]. *)
Definition render (w : QWidget) (img : QPixmap) (targetOffset : QPoint)
    (sourceRegion : QRect) : Py QPixmap := λ σ,
  (emit (EvRender w img targetOffset sourceRegion);;
   mret (QPixmap.paint img (screen σ (wid w)))) σ.

(** [img.save(fileName)]: [False] for a null pixmap, for a suffix without a
    writer and when the file cannot be written; otherwise the file is
    written in the format of the suffix. *)
Definition save (img : QPixmap) (fileName : string) : Py bool := λ σ,
  match QPixmap.isNull img, QImageWriter.format_for fileName with
  | false, Some fmt =>
      if write_refused env fileName
      then (emit (EvSave img fileName false);; mret false) σ
      else (Returned true,
            {| screen := screen σ;
               disk := <[fileName := {| file_format := fmt; file_image := img |}]> (disk σ);
               log := log σ ++ [EvSave img fileName true] |})
  | _, _ => (emit (EvSave img fileName false);; mret false) σ
  end.

(** *** Helpers *)

(** [save_widget_image]: the path is decoded before [img.save] is called;
    the second decoding, for the log line, gives the same string. *)
Definition save_widget_image (w : Ref QWidget) (scale : Z) : Py unit :=
  w ← attr w;
  let r := rect w in
  (* Create a QPixmap and render the view widget to it *)
  let img := QPixmap.new (scaled_size r scale) in
  let img := QPixmap.setDevicePixelRatio img scale in
  img ← render w img Qt.origin r;
  (* "binaryninja-" + the current Unix time as the default filename *)
  t ← time_time;
  let default_filename := ("binaryninja-" +:+ pretty t +:+ ".png")%string in
  (* None: the user has cancelled the operation *)
  save_path ← get_save_filename_input "Save Screenshot" "png" default_filename;
  match save_path with
  | None => mret ()
  | Some save_path =>
      match decode_ascii save_path with
      | None => raise UnicodeDecodeError
      | Some fileName =>
          ok ← (save img fileName : Py bool);
          if ok : bool
          then print ("Screenshot saved to " +:+ fileName +:+ " successfully.")%string
          else show_message_box "Error" "Failed to save screenshot."
                 OKButtonSet ErrorIcon
      end
  end.

(** *** Command implementations *)

Definition save_active_window_image (scale : Z) : Py unit :=
  main_window ← QApplication_activeWindow;
  match main_window with
  | Some _ => save_widget_image main_window scale
  | None => show_message_box "Error" "Couldn't find main window."
              OKButtonSet ErrorIcon
  end.

Definition save_active_view_image (scale : Z) : Py unit :=
  dh ← DockHandler_getActiveDockHandler;
  dh ← attr dh;
  let vf := getViewFrame dh in
  vf ← attr vf;
  let vf_widget := getCurrentWidget vf in
  save_widget_image vf_widget scale.

(** *** Command shorthands *)

Definition _ui_save_view_image_1x (_bv : BinaryView) : Py unit :=
  save_active_view_image 1.

Definition _ui_save_view_image_2x (_bv : BinaryView) : Py unit :=
  save_active_view_image 2.

Definition _ui_save_view_image_custom (_bv : BinaryView) : Py unit :=
  scale ← get_int_input "Resolution multiplier:" "Screenshot Ninja";
  match scale with
  | Some scale => save_active_view_image scale
  | None => mret ()
  end.

Definition _ui_save_window_image_1x (_bv : BinaryView) : Py unit :=
  save_active_window_image 1.

Definition _ui_save_window_image_2x (_bv : BinaryView) : Py unit :=
  save_active_window_image 2.

Definition _ui_save_window_image_custom (_bv : BinaryView) : Py unit :=
  scale ← get_int_input "Resolution multiplier:" "Screenshot Ninja";
  match scale with
  | Some scale => save_active_window_image scale
  | None => mret ()
  end.

End Plugin.

(** ** Command registration *)

Record PluginCommand := mkPluginCommand {
  name : string;
  description : string;
  action : Env → BinaryView → Py unit
}.

(** [PluginCommand.register] adds one command to the host's menu. *)
Definition PluginCommand_register (name description : string)
    (action : Env → BinaryView → Py unit) (menu : list PluginCommand)
  : list PluginCommand :=
  menu ++ [ {| name := name; description := description; action := action |} ].

(** What loading the module does: the six registrations, top to bottom. *)
Definition plugin_load (menu : list PluginCommand) : list PluginCommand :=
  let menu := PluginCommand_register
    "Screenshot Ninja \ Save view image @ 1x..."
    "Save an image of the currently visible linear/graph view at 1x scaling"
    _ui_save_view_image_1x menu in
  let menu := PluginCommand_register
    "Screenshot Ninja \ Save view image @ 2x..."
    "Save an image of the currently visible linear/graph view at 2x scaling"
    _ui_save_view_image_2x menu in
  let menu := PluginCommand_register
    "Screenshot Ninja \ Save view image..."
    "Save an image of the currently visible linear/graph view at custom scaling"
    _ui_save_view_image_custom menu in
  let menu := PluginCommand_register
    "Screenshot Ninja \ Save window image @ 1x..."
    "Save an image of the main window at 1x scaling"
    _ui_save_window_image_1x menu in
  let menu := PluginCommand_register
    "Screenshot Ninja \ Save window image @ 2x..."
    "Save an image of the main window at 2x scaling"
    _ui_save_window_image_2x menu in
  let menu := PluginCommand_register
    "Screenshot Ninja \ Save window image..."
    "Save an image of the main window at custom scaling"
    _ui_save_window_image_custom menu in
  menu.

(** ** Observing a run *)

Definition outcome_of {A} (c : Py A) (σ : World) : Outcome A := (c σ).1.
Definition final {A} (c : Py A) (σ : World) : World := (c σ).2.

(** The interactions of a run: what it appended to the log. *)
Definition events_of {A} (c : Py A) (σ : World) : list Event :=
  drop (length (log σ)) (log (final c σ)).

Definition is_render (ev : Event) : bool :=
  match ev with EvRender _ _ _ _ => true | _ => false end.
Definition is_save (ev : Event) : bool :=
  match ev with EvSave _ _ _ => true | _ => false end.
Definition is_message_box (ev : Event) : bool :=
  match ev with EvMessageBox _ _ _ _ => true | _ => false end.
Definition is_print (ev : Event) : bool :=
  match ev with EvPrint _ => true | _ => false end.

Definition is_prompt (ev : Event) : bool :=
  match ev with EvIntInput _ _ _ => true | _ => false end.

(** A prompt the user cancelled. *)
Definition cancelled (ev : Event) : bool :=
  match ev with
  | EvIntInput _ _ None => true
  | EvSaveDialog _ _ _ None => true
  | _ => false
  end.

(** The six commands, and which widget and scale each one goes for. *)
Inductive Target := View | Window.
Inductive Scaling := At1x | At2x | Custom.
Inductive Command := Cmd (t : Target) (s : Scaling).

Definition handler (c : Command) : Env → BinaryView → Py unit :=
  match c with
  | Cmd View At1x => _ui_save_view_image_1x
  | Cmd View At2x => _ui_save_view_image_2x
  | Cmd View Custom => _ui_save_view_image_custom
  | Cmd Window At1x => _ui_save_window_image_1x
  | Cmd Window At2x => _ui_save_window_image_2x
  | Cmd Window Custom => _ui_save_window_image_custom
  end.

Definition commands : list Command :=
  [ Cmd View At1x; Cmd View At2x; Cmd View Custom;
    Cmd Window At1x; Cmd Window At2x; Cmd Window Custom ].

(** The scale a command goes on with, [None] when its prompt is cancelled. *)
Definition scale_of (env : Env) (c : Command) : option Z :=
  match c with
  | Cmd _ At1x => Some 1
  | Cmd _ At2x => Some 2
  | Cmd _ Custom => int_answer env
  end.

(** The widget a command looks up, [None] when there is none to find. *)
Definition located (env : Env) (c : Command) : Ref QWidget :=
  match c with
  | Cmd Window _ => activeWindow env
  | Cmd View _ =>
      dh ← getActiveDockHandler env; vf ← getViewFrame dh; getCurrentWidget vf
  end.

Definition no_window_box : Event :=
  EvMessageBox "Error" "Couldn't find main window." OKButtonSet ErrorIcon.
Definition save_failed_box : Event :=
  EvMessageBox "Error" "Failed to save screenshot." OKButtonSet ErrorIcon.

(** The pixmap [save_widget_image] renders into, before and after painting. *)
Definition blank_image (w : QWidget) (scale : Z) : QPixmap :=
  QPixmap.setDevicePixelRatio (QPixmap.new (scaled_size (rect w) scale)) scale.
Definition shot (σ : World) (w : QWidget) (scale : Z) : QPixmap :=
  QPixmap.paint (blank_image w scale) (screen σ (wid w)).

Definition render_event (w : QWidget) (scale : Z) : Event :=
  EvRender w (blank_image w scale) Qt.origin (rect w).
Definition dialog_event (env : Env) : Event :=
  EvSaveDialog "Save Screenshot" "png"
    ("binaryninja-" +:+ pretty (clock env) +:+ ".png")%string
    (filename_answer env).
Definition prompt_event (env : Env) : Event :=
  EvIntInput "Resolution multiplier:" "Screenshot Ninja" (int_answer env).

(** ** What a run amounts to

    The functions below spell out, case by case, what the helper and the
    commands do; the lemmas of the next part prove that the code does exactly
    that, and the properties are read off from them. *)

Section Runs.

Variable env : Env.

(** Whether the toolkit writes the file. *)
Definition save_succeeds (img : QPixmap) (path : string) : bool :=
  negb (QPixmap.isNull img)
  && bool_decide (is_Some (QImageWriter.format_for path))
  && negb (write_refused env path).

Definition saved_line (path : string) : Event :=
  EvPrint ("Screenshot saved to " +:+ path +:+ " successfully.")%string.

Definition written (img : QPixmap) (path : string) (d : gmap string File)
  : gmap string File :=
  match QImageWriter.format_for path with
  | Some fmt => <[path := mkFile fmt img]> d
  | None => d
  end.

(** The world once a modal prompt has returned. *)
Definition prompted (ev : Event) (σ : World) : World :=
  {| screen := repaint env (screen σ); disk := disk σ; log := log σ ++ [ev] |}.

(** [save_widget_image] on a widget. *)
Definition widget_events (σ : World) (w : QWidget) (k : Z) : list Event :=
  [render_event w k; dialog_event env] ++
  match filename_answer env with
  | None => []
  | Some raw =>
      match decode_ascii raw with
      | None => []
      | Some path =>
          if save_succeeds (shot σ w k) path
          then [EvSave (shot σ w k) path true; saved_line path]
          else [EvSave (shot σ w k) path false; save_failed_box]
      end
  end.

Definition widget_outcome : Outcome unit :=
  match filename_answer env with
  | None => Returned ()
  | Some raw =>
      match decode_ascii raw with
      | None => Raised UnicodeDecodeError
      | Some _ => Returned ()
      end
  end.

Definition widget_disk (σ : World) (w : QWidget) (k : Z) : gmap string File :=
  match filename_answer env with
  | None => disk σ
  | Some raw =>
      match decode_ascii raw with
      | None => disk σ
      | Some path =>
          if save_succeeds (shot σ w k) path
          then written (shot σ w k) path (disk σ)
          else disk σ
      end
  end.

(** A command: the prompt of the custom ones, then the lookup, then the
    helper. *)
Definition prompt_events (c : Command) : list Event :=
  match c with
  | Cmd _ Custom => [prompt_event env]
  | _ => []
  end.

Definition after_prompt (c : Command) (σ : World) : World :=
  match c with
  | Cmd _ Custom => prompted (prompt_event env) σ
  | _ => σ
  end.

Definition command_events (c : Command) (σ : World) : list Event :=
  prompt_events c ++
  match scale_of env c with
  | None => []
  | Some k =>
      match located env c, c with
      | Some w, _ => widget_events (after_prompt c σ) w k
      | None, Cmd Window _ => [no_window_box]
      | None, Cmd View _ => []
      end
  end.

Definition command_outcome (c : Command) : Outcome unit :=
  match scale_of env c with
  | None => Returned ()
  | Some k =>
      match located env c, c with
      | Some w, _ => widget_outcome
      | None, Cmd Window _ => Returned ()
      | None, Cmd View _ => Raised AttributeError
      end
  end.

Definition command_disk (c : Command) (σ : World) : gmap string File :=
  match scale_of env c, located env c with
  | Some k, Some w => widget_disk (after_prompt c σ) w k
  | _, _ => disk σ
  end.

(** The three observations of a run, as one statement. *)
Definition runs_as {A} (c : Py A) (σ : World) (out : Outcome A)
    (evs : list Event) (d : gmap string File) : Prop :=
  outcome_of c σ = out ∧ log (final c σ) = log σ ++ evs ∧ disk (final c σ) = d.

End Runs.

(** ** Sample inputs *)

Module Sample.

Definition main_window : QWidget :=
  {| wid := 1; rect := {| x1 := 0; y1 := 0; x2 := 799; y2 := 599 |} |}.

Definition bv : BinaryView := mkBinaryView 0.

Definition world : World :=
  {| screen := λ id, (10 + id)%nat; disk := ∅; log := [] |}.

(** A session with a main window and no open view. *)
Definition session (scale : option Z) (path : option (list byte)) : Env :=
  {| activeWindow := Some main_window;
     getActiveDockHandler := Some {| getViewFrame := None |};
     int_answer := scale;
     filename_answer := path;
     clock := 1700000000;
     repaint := λ scr id, S (scr id);
     write_refused := λ _, false |}.

(** The same with no active window. *)
Definition headless (scale : option Z) : Env :=
  {| activeWindow := None;
     getActiveDockHandler := Some {| getViewFrame := None |};
     int_answer := scale;
     filename_answer := None;
     clock := 1700000000;
     repaint := λ scr id, S (scr id);
     write_refused := λ _, false |}.

(** A session whose active view is the main window's widget. *)
Definition viewing (scale : option Z) (path : option (list byte)) : Env :=
  {| activeWindow := Some main_window;
     getActiveDockHandler :=
       Some {| getViewFrame := Some {| getCurrentWidget := Some main_window |} |};
     int_answer := scale;
     filename_answer := path;
     clock := 1700000000;
     repaint := λ scr id, S (scr id);
     write_refused := λ _, false |}.


(** The paths [b"shot.png"] and [b"shot.bmp"]. *)
Definition shot_png : list byte := String.list_byte_of_string "shot.png".
Definition shot_bmp : list byte := String.list_byte_of_string "shot.bmp".

End Sample.

(** * Properties *)

(** ** The runs, proved *)

Section RunLemmas.

Variable env : Env.

Lemma save_run img path σ :
  save env img path σ =
  (Returned (save_succeeds env img path),
   {| screen := screen σ;
      disk := if save_succeeds env img path
              then written img path (disk σ) else disk σ;
      log := log σ ++ [EvSave img path (save_succeeds env img path)] |}).
Proof.
  unfold save, save_succeeds, written.
  destruct (QPixmap.isNull img), (QImageWriter.format_for path) as [fmt|],
    (write_refused env path); reflexivity.
Qed.

Lemma save_widget_image_run w k σ :
  outcome_of (save_widget_image env (Some w) k) σ = widget_outcome env
  ∧ log (final (save_widget_image env (Some w) k) σ)
    = log σ ++ widget_events env σ w k
  ∧ disk (final (save_widget_image env (Some w) k) σ) = widget_disk env σ w k.
Proof.
  unfold outcome_of, final, widget_outcome, widget_events, widget_disk,
    save_widget_image, get_save_filename_input, render, time_time,
    dialog_event, render_event, shot, blank_image, saved_line, save_failed_box.
  unfold mbind, Py_bind, mret, Py_ret, attr, modal, emit; simpl.
  destruct (filename_answer env) as [raw|]; simpl.
  2: { by rewrite <- app_assoc. }
  destruct (decode_ascii raw) as [path|]; simpl.
  2: { unfold raise. by rewrite <- app_assoc. }
  rewrite save_run; simpl.
  destruct (save_succeeds _ _ path); simpl; by rewrite <- !app_assoc.
Qed.

Lemma save_active_window_image_run k σ :
  save_active_window_image env k σ =
  match activeWindow env with
  | Some w => save_widget_image env (Some w) k σ
  | None => (Returned (), prompted env no_window_box σ)
  end.
Proof.
  unfold save_active_window_image, QApplication_activeWindow.
  unfold mbind, Py_bind, mret, Py_ret.
  by destruct (activeWindow env).
Qed.

Lemma save_active_view_image_run s k σ :
  save_active_view_image env k σ =
  match located env (Cmd View s) with
  | Some w => save_widget_image env (Some w) k σ
  | None => (Raised AttributeError, σ)
  end.
Proof.
  unfold save_active_view_image, DockHandler_getActiveDockHandler, located.
  unfold mbind, Py_bind, mret, Py_ret, attr, raise, option_bind.
  destruct (getActiveDockHandler env) as [[[[[cw|]]|]]|]; simpl; done.
Qed.

Lemma window_run k σ :
  runs_as (save_active_window_image env k) σ
    (match activeWindow env with Some _ => widget_outcome env | None => Returned () end)
    (match activeWindow env with
     | Some w => widget_events env σ w k | None => [no_window_box] end)
    (match activeWindow env with
     | Some w => widget_disk env σ w k | None => disk σ end).
Proof.
  unfold runs_as, outcome_of, final.
  rewrite save_active_window_image_run.
  destruct (activeWindow env) as [w|]; [apply save_widget_image_run | done].
Qed.

Lemma view_run s k σ :
  runs_as (save_active_view_image env k) σ
    (match located env (Cmd View s) with
     | Some _ => widget_outcome env | None => Raised AttributeError end)
    (match located env (Cmd View s) with
     | Some w => widget_events env σ w k | None => [] end)
    (match located env (Cmd View s) with
     | Some w => widget_disk env σ w k | None => disk σ end).
Proof.
  unfold runs_as, outcome_of, final.
  rewrite (save_active_view_image_run s).
  destruct (located env (Cmd View s)) as [w|];
    [apply save_widget_image_run | by rewrite app_nil_r].
Qed.

Lemma custom_run (body : Z → Py unit) σ :
  (get_int_input env "Resolution multiplier:" "Screenshot Ninja"
     ≫= λ scale : option Z,
          match scale with Some scale => body scale | None => mret () end) σ
  = match int_answer env with
    | Some k => body k (prompted env (prompt_event env) σ)
    | None => (Returned (), prompted env (prompt_event env) σ)
    end.
Proof.
  unfold get_int_input, modal, prompted, prompt_event.
  unfold mbind, Py_bind, mret, Py_ret; simpl.
  by destruct (int_answer env).
Qed.

Lemma runs_as_prompted {A} (c : Py A) ev σ out evs d :
  runs_as c (prompted env ev σ) out evs d →
  outcome_of c (prompted env ev σ) = out
  ∧ log (final c (prompted env ev σ)) = log σ ++ ev :: evs
  ∧ disk (final c (prompted env ev σ)) = d.
Proof.
  intros (Ho & Hl & Hd). repeat split; try done.
  rewrite Hl. simpl. by rewrite <- app_assoc.
Qed.

Lemma handler_run c bv σ :
  runs_as (handler c env bv) σ
    (command_outcome env c) (command_events env c σ) (command_disk env c σ).
Proof.
  destruct c as [[] []]; simpl handler;
    unfold _ui_save_view_image_1x, _ui_save_view_image_2x,
      _ui_save_window_image_1x, _ui_save_window_image_2x,
      _ui_save_view_image_custom, _ui_save_window_image_custom.
  - generalize (view_run At1x 1 σ).
    unfold command_outcome, command_events, command_disk; simpl.
    by destruct (getActiveDockHandler env) as [[[[[cw|]]|]]|].
  - generalize (view_run At2x 2 σ).
    unfold command_outcome, command_events, command_disk; simpl.
    by destruct (getActiveDockHandler env) as [[[[[cw|]]|]]|].
  - unfold runs_as, outcome_of, final. rewrite custom_run.
    unfold command_outcome, command_events, command_disk; simpl.
    destruct (int_answer env) as [k|]; [|done].
    generalize (runs_as_prompted _ _ _ _ _ _
                  (view_run Custom k (prompted env (prompt_event env) σ))).
    simpl.
    by destruct (getActiveDockHandler env) as [[[[[cw|]]|]]|].
  - generalize (window_run 1 σ).
    unfold command_outcome, command_events, command_disk; simpl.
    by destruct (activeWindow env).
  - generalize (window_run 2 σ).
    unfold command_outcome, command_events, command_disk; simpl.
    by destruct (activeWindow env).
  - unfold runs_as, outcome_of, final. rewrite custom_run.
    unfold command_outcome, command_events, command_disk; simpl.
    destruct (int_answer env) as [k|]; [|done].
    generalize (runs_as_prompted _ _ _ _ _ _
                  (window_run k (prompted env (prompt_event env) σ))).
    simpl.
    by destruct (activeWindow env).
Qed.

Lemma events_of_run {A} (c : Py A) σ out evs d :
  runs_as c σ out evs d → events_of c σ = evs.
Proof.
  intros (_ & Hl & _). unfold events_of. rewrite Hl. apply drop_app_length.
Qed.

Lemma handler_events c bv σ :
  events_of (handler c env bv) σ = command_events env c σ.
Proof. eapply events_of_run, handler_run. Qed.

Lemma handler_outcome c bv σ :
  outcome_of (handler c env bv) σ = command_outcome env c.
Proof. apply handler_run. Qed.

Lemma handler_disk c bv σ :
  disk (final (handler c env bv) σ) = command_disk env c σ.
Proof. apply handler_run. Qed.


End RunLemmas.




Lemma height_setWidth r w : Qt.height (Qt.setWidth r w) = Qt.height r.
Proof. reflexivity. Qed.


(** C8: loading the plugin registers exactly six commands, each with its
    fixed label and description: the view image at 1x, 2x and custom scaling,
    then the window image at 1x, 2x and custom scaling. *)
Theorem six_commands_registered :
  length (plugin_load []) = 6%nat
  ∧ action <$> plugin_load [] = handler <$> commands
  ∧ NoDup (name <$> plugin_load [])
  ∧ (λ c, (name c, description c)) <$> plugin_load [] =
    [ ("Screenshot Ninja \ Save view image @ 1x...",
       "Save an image of the currently visible linear/graph view at 1x scaling");
      ("Screenshot Ninja \ Save view image @ 2x...",
       "Save an image of the currently visible linear/graph view at 2x scaling");
      ("Screenshot Ninja \ Save view image...",
       "Save an image of the currently visible linear/graph view at custom scaling");
      ("Screenshot Ninja \ Save window image @ 1x...",
       "Save an image of the main window at 1x scaling");
      ("Screenshot Ninja \ Save window image @ 2x...",
       "Save an image of the main window at 2x scaling");
      ("Screenshot Ninja \ Save window image...",
       "Save an image of the main window at custom scaling") ]%string.
Proof.
  repeat split; try reflexivity.
  compute_done.
Qed.




(** Case analysis on everything a command's events depend on. *)
Ltac command_cases env c :=
  rewrite ?handler_events, ?handler_outcome, ?handler_disk;
  unfold command_events, command_outcome, command_disk, prompt_events,
    after_prompt, widget_events, widget_outcome, widget_disk;
  destruct c as [[] []]; simpl scale_of;
  try match goal with
  | |- context [match int_answer env with _ => _ end] =>
      destruct (int_answer env) as [?k|] eqn:?Hint
  end;
  try match goal with
  | |- context [located env ?c] =>
      destruct (located env c) as [?w|] eqn:?Hloc; simpl in Hloc
  end;
  try match goal with
  | |- context [match filename_answer env with _ => _ end] =>
      destruct (filename_answer env) as [?raw|] eqn:?Hfile
  end;
  try match goal with
  | |- context [decode_ascii ?r] => destruct (decode_ascii r) as [?path|] eqn:?Hdec
  end;
  try match goal with
  | |- context [save_succeeds env ?i ?p] =>
      destruct (save_succeeds env i p) eqn:?Hsave
  end;
  simpl.

Ltac members :=
  unfold no_window_box, save_failed_box, saved_line, render_event,
    dialog_event, prompt_event;
  repeat setoid_rewrite list_elem_of_In; simpl.

(** C3: a message box is shown in exactly two situations, and it is the error
    dialog each time: a main-window command that gets to its lookup finds no
    main window, or a save attempt fails. *)
Theorem error_dialog_conditions (env : Env) (c : Command) (bv : BinaryView)
    (σ : World) :
  (∀ ev, ev ∈ events_of (handler c env bv) σ → is_message_box ev = true →
         ev = no_window_box ∨ ev = save_failed_box)
  ∧ (no_window_box ∈ events_of (handler c env bv) σ ↔
       (∃ s, c = Cmd Window s) ∧ is_Some (scale_of env c) ∧ activeWindow env = None)
  ∧ (save_failed_box ∈ events_of (handler c env bv) σ ↔
       ∃ img path, EvSave img path false ∈ events_of (handler c env bv) σ).
Proof.
  command_cases env c.
  all: split; [|split].
  all: try (intros ev; members; naive_solver).
  all: members; unfold is_Some; naive_solver.
Qed.

(** C2, as the code has it: when the widget a command goes for cannot be
    located, nothing is rendered, no save is attempted and no file is
    written; a main-window command that got to its lookup then shows the
    error dialog and returns. *)
Theorem not_located_aborts (env : Env) (c : Command) (bv : BinaryView)
    (σ : World) :
  located env c = None →
  List.filter is_render (events_of (handler c env bv) σ) = []
  ∧ List.filter is_save (events_of (handler c env bv) σ) = []
  ∧ disk (final (handler c env bv) σ) = disk σ
  ∧ (∀ s, c = Cmd Window s → is_Some (scale_of env c) →
       outcome_of (handler c env bv) σ = Returned ()
       ∧ List.filter is_message_box (events_of (handler c env bv) σ)
         = [no_window_box]).
Proof.
  intros Hnone.
  rewrite handler_events, handler_outcome, handler_disk.
  unfold command_events, command_outcome, command_disk, prompt_events.
  rewrite Hnone.
  destruct c as [[] []]; simpl;
    try destruct (int_answer env) as [k|]; simpl;
    repeat split; try done; intros s Hc; try discriminate Hc;
    by intros [? ?].
Qed.

Lemma not_located_aborts_witness :
  located (Sample.headless None) (Cmd Window At2x) = None
  ∧ outcome_of (handler (Cmd Window At2x) (Sample.headless None) Sample.bv)
      Sample.world = Returned ()
  ∧ List.filter is_message_box
      (events_of (handler (Cmd Window At2x) (Sample.headless None) Sample.bv)
         Sample.world)
    = [no_window_box].
Proof.
  split; [reflexivity|].
  destruct (not_located_aborts (Sample.headless None) (Cmd Window At2x)
              Sample.bv Sample.world eq_refl) as (_ & _ & _ & H).
  apply (H At2x eq_refl). by exists 2.
Defined.

(** C2 fails as stated: with no view frame open, a view command shows no
    dialog; it ends in an [AttributeError] before anything else happens. *)
Lemma view_lookup_failure_raises :
  located (Sample.session None None) (Cmd View At1x) = None
  ∧ outcome_of (handler (Cmd View At1x) (Sample.session None None) Sample.bv)
      Sample.world = Raised AttributeError
  ∧ events_of (handler (Cmd View At1x) (Sample.session None None) Sample.bv)
      Sample.world = [].
Proof. repeat split. Qed.


(** C4: when the user cancels a prompt, the resolution prompt or the save
    dialog, the command returns normally, writes no file, attempts no save
    and shows no message box and no log line. *)
Theorem cancel_is_silent (env : Env) (c : Command) (bv : BinaryView)
    (σ : World) :
  (∃ ev, ev ∈ events_of (handler c env bv) σ ∧ cancelled ev = true) →
  outcome_of (handler c env bv) σ = Returned ()
  ∧ disk (final (handler c env bv) σ) = disk σ
  ∧ List.filter is_save (events_of (handler c env bv) σ) = []
  ∧ List.filter is_message_box (events_of (handler c env bv) σ) = []
  ∧ List.filter is_print (events_of (handler c env bv) σ) = [].
Proof.
  intros (ev & Hev & Hc). revert Hev.
  command_cases env c; members; rewrite ?Hint, ?Hfile; intros Hev.
  all: try done.
  all: repeat (destruct Hev as [Hev|Hev]; [subst ev; simpl in Hc|]);
    done.
Qed.

Lemma cancel_is_silent_witness :
  outcome_of (handler (Cmd Window At1x) (Sample.session None None) Sample.bv)
    Sample.world = Returned ()
  ∧ disk (final (handler (Cmd Window At1x) (Sample.session None None) Sample.bv)
            Sample.world) = disk Sample.world.
Proof.
  destruct (cancel_is_silent (Sample.session None None) (Cmd Window At1x)
              Sample.bv Sample.world) as (Ho & Hd & _).
  - exists (dialog_event (Sample.session None None)).
    split; [|reflexivity]. apply list_elem_of_In. vm_compute. tauto.
  - by split.
Defined.







Lemma save_succeeds_format env img path :
  save_succeeds env img path = true →
  ∃ fmt, QImageWriter.format_for path = Some fmt
         ∧ written img path = λ d, <[path := mkFile fmt img]> d.
Proof.
  unfold save_succeeds, written. intros H.
  apply andb_prop in H as [H _]. apply andb_prop in H as [_ H].
  apply bool_decide_eq_true in H as [fmt Hfmt].
  exists fmt. by rewrite Hfmt.
Qed.

Lemma format_for_png path :
  QImageWriter.suffix path = "png"%string →
  QImageWriter.format_for path = Some PNG.
Proof. unfold QImageWriter.format_for. by intros ->. Qed.

(** C7, as the code has it: when a command's save succeeds, the file is at
    the path the user chose, decoded as ASCII, and holds the rendered image
    in the format the toolkit picks from the path's suffix, which is PNG
    when the suffix is png. *)
Theorem artifact_at_chosen_path (env : Env) (c : Command) (bv : BinaryView)
    (σ : World) (img : QPixmap) (path : string) :
  EvSave img path true ∈ events_of (handler c env bv) σ →
  ∃ raw fmt,
    filename_answer env = Some raw
    ∧ decode_ascii raw = Some path
    ∧ QImageWriter.format_for path = Some fmt
    ∧ disk (final (handler c env bv) σ) !! path
      = Some {| file_format := fmt; file_image := img |}
    ∧ (QImageWriter.suffix path = "png"%string → fmt = PNG).
Proof.
  command_cases env c; members; intros Hev.
  all: repeat (destruct Hev as [Hev|Hev]; [try discriminate Hev|]); try done.
  all: inversion Hev; subst.
  all: unfold prompt_event in Hsave.
  all: destruct (save_succeeds_format _ _ _ Hsave) as (fmt & Hfmt & ->).
  all: eexists _, fmt; repeat split; try done.
  all: try apply lookup_insert_eq.
  all: intros Hpng; apply format_for_png in Hpng; congruence.
Qed.

Lemma artifact_at_chosen_path_witness :
  ∃ raw fmt,
    filename_answer (Sample.session None (Some Sample.shot_png)) = Some raw
    ∧ decode_ascii raw = Some "shot.png"%string
    ∧ QImageWriter.format_for "shot.png" = Some fmt.
Proof.
  destruct (artifact_at_chosen_path (Sample.session None (Some Sample.shot_png))
              (Cmd Window At1x) Sample.bv Sample.world
              (shot Sample.world Sample.main_window 1) "shot.png")
    as (raw & fmt & H1 & H2 & H3 & _).
  - apply list_elem_of_In. vm_compute. tauto.
  - by exists raw, fmt.
Defined.

(** C7 fails as stated: the user picks [shot.bmp], the save succeeds, and the
    file written there is a BMP image. *)
Lemma chosen_suffix_decides_format :
  outcome_of
    (handler (Cmd Window At1x) (Sample.session None (Some Sample.shot_bmp))
       Sample.bv) Sample.world = Returned ()
  ∧ List.filter is_save
      (events_of
         (handler (Cmd Window At1x) (Sample.session None (Some Sample.shot_bmp))
            Sample.bv) Sample.world)
    = [EvSave (shot Sample.world Sample.main_window 1) "shot.bmp" true]
  ∧ disk
      (final
         (handler (Cmd Window At1x) (Sample.session None (Some Sample.shot_bmp))
            Sample.bv) Sample.world) !! "shot.bmp"%string
    = Some {| file_format := BMP;
              file_image := shot Sample.world Sample.main_window 1 |}.
Proof. repeat split. Qed.

(** ** Further properties of the commands *)





(** X4: the custom commands ask for the multiplier before anything else,
    also before they look for their widget, and ask once; the 1x and 2x
    commands never ask. *)
Theorem prompt_first_and_once (env : Env) (c : Command) (bv : BinaryView)
    (σ : World) :
  List.filter is_prompt (events_of (handler c env bv) σ)
  = match c with
    | Cmd _ Custom =>
        [EvIntInput "Resolution multiplier:" "Screenshot Ninja" (int_answer env)]
    | _ => []
    end
  ∧ match c with
    | Cmd _ Custom =>
        head (events_of (handler c env bv) σ)
        = Some (EvIntInput "Resolution multiplier:" "Screenshot Ninja"
                  (int_answer env))
    | _ => True
    end.
Proof.
  command_cases env c; split; try done.
  all: unfold prompt_event; by rewrite ?Hint.
Qed.

(** *** The suffix of a name that ends in [.png] *)









(** *** When the toolkit writes the file *)







Lemma decode_ascii_encode (raw : list byte) (path : string) :
  decode_ascii raw = Some path → String.list_byte_of_string path = raw.
Proof.
  revert path. induction raw as [|b raw IH]; simpl; intros path H.
  - by inversion H.
  - destruct (Byte.to_N b <? 128)%N; [|done].
    destruct (decode_ascii raw) as [p|]; [|done].
    inversion H; subst.
    change (Ascii.byte_of_ascii (Ascii.ascii_of_byte b)
              :: String.list_byte_of_string p = b :: raw).
    by rewrite Ascii.byte_of_ascii_of_byte, (IH p).
Qed.

(** X7: whatever a command saves, it saves under the very bytes the user
    chose: the path handed to the toolkit encodes back to the dialog's
    answer, so nothing is appended, trimmed or normalised, and each of its
    characters is ASCII. *)
Theorem saved_path_round_trip (env : Env) (c : Command) (bv : BinaryView)
    (σ : World) (img : QPixmap) (path : string) (ok : bool) :
  EvSave img path ok ∈ events_of (handler c env bv) σ →
  filename_answer env = Some (String.list_byte_of_string path)
  ∧ decode_ascii (String.list_byte_of_string path) = Some path.
Proof.
  command_cases env c; members; intros Hev.
  all: repeat (destruct Hev as [Hev|Hev]; [try discriminate Hev|]); try done.
  all: inversion Hev; subst.
  all: by rewrite (decode_ascii_encode _ _ Hdec).
Qed.

Lemma saved_path_round_trip_witness :
  filename_answer (Sample.session None (Some Sample.shot_bmp))
  = Some (String.list_byte_of_string "shot.bmp").
Proof.
  apply (saved_path_round_trip (Sample.session None (Some Sample.shot_bmp))
           (Cmd Window At1x) Sample.bv Sample.world
           (shot Sample.world Sample.main_window 1) "shot.bmp" true).
  apply list_elem_of_In. vm_compute. tauto.
Defined.





(** *** Saving twice *)





(** X10: the view commands and the window commands differ in the lookup
    only.  When the active view's widget and the active window are the same
    widget, the view command and the window command of the same scaling do
    exactly the same: same outcome, same interactions, same disk. *)
Theorem view_and_window_agree (env : Env) (s : Scaling) (bv : BinaryView)
    (σ : World) (w : QWidget) :
  located env (Cmd View s) = Some w →
  activeWindow env = Some w →
  handler (Cmd View s) env bv σ = handler (Cmd Window s) env bv σ.
Proof.
  intros Hview Hwin.
  assert (Hsame : ∀ k σ', save_active_view_image env k σ'
                          = save_active_window_image env k σ').
  { intros k σ'.
    by rewrite (save_active_view_image_run env s), Hview,
      save_active_window_image_run, Hwin. }
  destruct s; simpl handler;
    unfold _ui_save_view_image_1x, _ui_save_view_image_2x,
      _ui_save_window_image_1x, _ui_save_window_image_2x,
      _ui_save_view_image_custom, _ui_save_window_image_custom;
    rewrite ?custom_run; try apply Hsame.
  destruct (int_answer env); [apply Hsame | done].
Qed.

Lemma view_and_window_agree_witness :
  handler (Cmd View At2x) (Sample.viewing None (Some Sample.shot_png))
    Sample.bv Sample.world
  = handler (Cmd Window At2x) (Sample.viewing None (Some Sample.shot_png))
      Sample.bv Sample.world.
Proof.
  exact (view_and_window_agree (Sample.viewing None (Some Sample.shot_png))
           At2x Sample.bv Sample.world Sample.main_window eq_refl eq_refl).
Defined.
